(** * Wind energy dashboard: the wind-to-power pipeline of [Home/app.py]

    A shallow embedding of the computational part of the dashboard:
    [geocode], [fetch_wind_data], [adjust_height],
    [turbine_power_from_wind] and the body of the [if run_fetch:] block
    (choice of the location, merge, derived columns, summary metrics,
    48-hour window).

    Modelling choices.
    - Python floats and the elements of NumPy/pandas float columns are real
      numbers ([R]); rounding, infinities and NaN are not represented.
      Statements over [R] therefore describe the code up to the rounding of
      the expressions it evaluates. Where rounding itself decides, module
      [Binary64] repeats [turbine_power_from_wind] on IEEE 754 binary64
      numbers.
    - A response of a web service is either missing or a status with a
      well-formed JSON body (an object whose arrays hold parsed timestamps
      and numbers); bodies that are not JSON, [null] in place of an object
      or of a number, and unreadable time strings are not represented.
    - A pandas column is a list, a data frame a list of rows in index order;
      the vectorised operations of the source act row by row.
    - A timestamp is the integer number of nanoseconds since the epoch, as
      pandas stores it; a date is a day number.
    - Exceptions are values of [outcome]. *)

From Stdlib Require Import Reals Lra Lia ZArith Bool List.
From Stdlib Require Import Sorting.Sorted Sorting.Permutation.
From Stdlib Require PrimFloat.
Import ListNotations.

Local Open Scope R_scope.

(** ** Boolean comparisons on floats *)

Definition Rltb (x y : R) : bool := if Rlt_dec x y then true else false.
Definition Rgtb (x y : R) : bool := Rltb y x.

(** ** NumPy element-wise primitives *)

Module np.
(** [np.where(cond, a, b)] on one element. *)
Definition where_ (cond : bool) (a b : R) : R := if cond then a else b.
(** [np.minimum(a, b)] on one element. *)
Definition minimum (a b : R) : R := Rmin a b.
(** [np.pi]. *)
Definition pi : R := PI.
End np.

(** ** [turbine_power_from_wind] (lines 78-84) *)

Module Defaults.
Definition cp : R := 0.4.
Definition air_density : R := 1.225.
Definition rated_power_kw : R := 1500.
Definition cut_in : R := 3.5.
Definition cut_out : R := 25.0.
Definition rated_wind : R := 12.0.
End Defaults.

(** The ideal aerodynamic power in watts, line 81 (with line 80 inlined as
    [A]). *)
Definition aero_power_watt (v rotor_diameter cp air_density : R) : R :=
  let A := np.pi * (rotor_diameter / 2.0) ^ 2 in
  0.5 * air_density * A * cp * (v ^ 3).

(** The function on one element of [v]. [rated_wind] is accepted and
    ignored, as in the source. *)
Definition turbine_power_from_wind
    (v rotor_diameter cp air_density rated_power_kw cut_in cut_out rated_wind : R)
    : R :=
  let A := np.pi * (rotor_diameter / 2.0) ^ 2 in
  let P_watt := 0.5 * air_density * A * cp * (v ^ 3) in
  let P_watt := np.where_ (Rltb v cut_in || Rgtb v cut_out) 0.0 P_watt in
  let P_watt := np.minimum P_watt (rated_power_kw * 1000.0) in
  P_watt / 1000.0.

(** ** [turbine_power_from_wind] on binary64 numbers *)

Module Binary64.
Import PrimFloat.
Local Open Scope float_scope.
Set Warnings "-inexact-float".

(** A decimal constant stands for the nearest binary64 number, as in
    Python. *)

(** [np.pi]. *)
Definition pi : float := 0x1.921fb54442d18p+1.

(** [x ** 2] and [x ** 3]: the C library's [pow], taken as repeated
    multiplication (they agree whenever the power is a binary64 number, as
    for 38.5, 20 and 25 below). *)
Definition square (x : float) : float := x * x.
Definition cube (x : float) : float := x * x * x.

(** [np.minimum] on one element: a NaN on either side wins. *)
Definition minimum (a b : float) : float :=
  if is_nan a then a else if is_nan b then b else if b <? a then b else a.

(** Lines 80-84 on one element of [v], operation by operation. *)
Definition turbine_power_from_wind
    (v rotor_diameter cp air_density rated_power_kw cut_in cut_out rated_wind
       : float) : float :=
  let A := pi * square (rotor_diameter / 2.0) in
  let P_watt := 0.5 * air_density * A * cp * cube v in
  let P_watt := if (v <? cut_in) || (cut_out <? v) then 0.0 else P_watt in
  let P_watt := minimum P_watt (rated_power_kw * 1000.0) in
  P_watt / 1000.0.

(** The closed form "min(P / 1000, rated)" of the same curve inside the
    operating range, evaluated on binary64 numbers. *)
Definition min_of_kw (v rotor_diameter cp air_density rated_power_kw : float)
    : float :=
  minimum (0.5 * air_density * pi * square (rotor_diameter / 2.0) * cp * cube v
           / 1000.0)
          rated_power_kw.
End Binary64.

(** ** Exceptions and outcomes *)

Inductive exn : Type :=
| ZeroDivisionError               (* float division or 0.0 ** negative *)
| ValueError                      (* pandas: arrays of different length *)
| HTTPError (status_code : Z)     (* [raise_for_status] *)
| RequestException.               (* [requests.get] could not complete *)

(** Result of running a piece of the program. [NotReal] is not a Python
    exception: it marks a value that leaves the real numbers (CPython
    answers a negative base raised to a fractional power with a complex
    number); nothing is modelled beyond that point. *)
Inductive outcome (A : Type) : Type :=
| Ok (a : A)
| Raise (e : exn)
| NotReal.

Arguments Ok {A} a.
Arguments Raise {A} e.
Arguments NotReal {A}.

Definition bind {A B : Type} (c : outcome A) (k : A -> outcome B) : outcome B :=
  match c with
  | Ok a => k a
  | Raise e => Raise e
  | NotReal => NotReal
  end.

Notation "x <- c ;; k" := (bind c (fun x => k))
  (at level 61, c at next level, right associativity).

(** ** Python float division and power *)

Definition float_div (x y : R) : outcome R :=
  if Req_dec_T y 0 then Raise ZeroDivisionError else Ok (x / y).

Definition is_integral (y : R) : bool :=
  if Req_dec_T (frac_part y) 0 then true else false.

(** [x ** y] on floats. *)
Definition float_pow (x y : R) : outcome R :=
  if Rlt_dec 0 x then Ok (Rpower x y)
  else if Rlt_dec x 0 then
    (if is_integral y then Ok (powerRZ x (Int_part y)) else NotReal)
  else if Rlt_dec y 0 then Raise ZeroDivisionError
  else if Rlt_dec 0 y then Ok 0
  else Ok 1.

(** ** [adjust_height] (lines 74-76) *)

Module HeightDefaults.
Definition z_from : R := 10.0.
Definition z_to : R := 80.0.
Definition alpha : R := 0.14.
End HeightDefaults.

(** [wind_series] is a column; the factor is computed once and multiplies
    every element. *)
Definition adjust_height (wind_series : list R) (z_from z_to alpha : R)
    : outcome (list R) :=
  ratio <- float_div z_to z_from ;;
  factor <- float_pow ratio alpha ;;
  Ok (map (fun w => w * factor) wind_series).

(** ** The weather service and [fetch_wind_data] (lines 56-72) *)

(** The query parameters that vary; [hourly = "windspeed_10m"] and
    [timezone = "UTC"] are constant. Dates are day numbers. *)
Record request : Type := {
  latitude : R;
  longitude : R;
  start_date : Z;
  end_date : Z
}.

(** The ["hourly"] object of the JSON body. A field is [None] when the key
    is absent. Time strings are taken as already read: an entry of ["time"]
    is the timestamp [pd.to_datetime(..., utc=True)] gives for it. *)
Record hourly_json : Type := {
  time : option (list Z);
  windspeed_10m : option (list R)
}.

Inductive reply : Type :=
| Unreachable                                        (* no response *)
| Response (status_code : Z) (hourly : option hourly_json).

(** [d.get(key, default)]. *)
Definition dict_get {A : Type} (field : option A) (default : A) : A :=
  match field with
  | Some x => x
  | None => default
  end.

Definition requests_get (server : request -> reply) (params : request)
    : outcome (Z * option hourly_json) :=
  match server params with
  | Unreachable => Raise RequestException
  | Response code body => Ok (code, body)
  end.

Definition raise_for_status (status_code : Z) : outcome unit :=
  if ((400 <=? status_code) && (status_code <? 600))%Z
  then Raise (HTTPError status_code)
  else Ok tt.

(** A frame with the columns [time_utc] and [wind_m_s]; [pd.DataFrame()] is
    the empty list. *)
Definition DataFrame : Type := list (Z * R).

(** [pd.DataFrame({"time_utc": ..., "wind_m_s": ...})]: pandas refuses
    columns of different length. *)
Definition pd_DataFrame (time_utc : list Z) (wind_m_s : list R)
    : outcome DataFrame :=
  if Nat.eqb (length time_utc) (length wind_m_s)
  then Ok (combine time_utc wind_m_s)
  else Raise ValueError.

(** [not times] for a list. *)
Definition falsy {A : Type} (l : list A) : bool :=
  match l with
  | [] => true
  | _ :: _ => false
  end.

Definition fetch_wind_data (server : request -> reply)
    (lat lon : R) (start_date end_date : Z) : outcome DataFrame :=
  let params := {| latitude := lat; longitude := lon;
                   start_date := start_date; end_date := end_date |} in
  r <- requests_get server params ;;
  _ <- raise_for_status (fst r) ;;
  let hourly := dict_get (snd r) {| time := None; windspeed_10m := None |} in
  let times := dict_get (time hourly) [] in
  let ws := dict_get (windspeed_10m hourly) [] in
  if falsy times then Ok []
  else pd_DataFrame times ws.

(** ** Rows of the merged frame *)

Inductive source_tag : Type := history | forecast.

Definition source_eqb (a b : source_tag) : bool :=
  match a, b with
  | history, history | forecast, forecast => true
  | _, _ => false
  end.

(** A row once the [source] column is set. *)
Record Sample : Type := {
  time_utc : Z;
  wind_m_s : R;
  source : source_tag
}.

(** A row with the derived columns. *)
Record Row : Type := {
  sample : Sample;
  wind_hub_m_s : R;
  power_kW : R;
  energy_kWh : R
}.

(** [df.empty]. *)
Definition empty {A : Type} (df : list A) : bool := falsy df.

(** [df["source"] = tag]. *)
Definition set_source (tag : source_tag) (df : DataFrame) : list Sample :=
  map (fun r => {| time_utc := fst r; wind_m_s := snd r; source := tag |}) df.

(** [sort_values("time_utc")] followed by [reset_index(drop=True)]. pandas
    fixes no order among rows of equal timestamp; this insertion sort keeps
    them in input order. *)
Fixpoint insert_by_time (x : Sample) (l : list Sample) : list Sample :=
  match l with
  | [] => [x]
  | y :: l' =>
      if (time_utc x <=? time_utc y)%Z then x :: l
      else y :: insert_by_time x l'
  end.

Definition sort_values (df : list Sample) : list Sample :=
  fold_right insert_by_time [] df.

(** Lines 142-145: tag each non-empty side, concatenate, sort. *)
Definition merge (hist_df fc_df : DataFrame) : list Sample :=
  let hist := if negb (empty hist_df) then set_source history hist_df else [] in
  let fc := if negb (empty fc_df) then set_source forecast fc_df else [] in
  sort_values (hist ++ fc).

(** ** Sidebar settings (lines 90-96) *)

Record settings : Type := {
  rotor_diameter : R;
  rated_power_kw : R;
  hub_height : R;
  cp : R;
  alpha : R;
  history_days : Z
}.

Definition forecast_days : Z := 7.

(** The ranges the sidebar widgets enforce. *)
Definition widget_ranges (s : settings) : Prop :=
  1.0 <= rotor_diameter s <= 150.0 /\
  1.0 <= rated_power_kw s <= 10000.0 /\
  10.0 <= hub_height s <= 200.0 /\
  0.1 <= cp s <= 0.5 /\
  0.07 <= alpha s <= 0.25 /\
  (1 <= history_days s <= 30)%Z.

(** The values the widgets start with. *)
Definition sidebar_defaults : settings :=
  {| rotor_diameter := 77.0; rated_power_kw := 1500.0; hub_height := 80.0;
     cp := 0.4; alpha := 0.14; history_days := 14 |}.

(** ** Derived columns (lines 146-148) *)

(** Attach three columns to the frame, row by row. The columns attached
    below always have the length of the frame. *)
Fixpoint assign (df : list Sample) (hub power energy : list R) : list Row :=
  match df, hub, power, energy with
  | r :: df', h :: hub', p :: power', e :: energy' =>
      {| sample := r; wind_hub_m_s := h; power_kW := p; energy_kWh := e |}
      :: assign df' hub' power' energy'
  | _, _, _, _ => []
  end.

Definition derive (s : settings) (df : list Sample) : outcome (list Row) :=
  wind_hub <- adjust_height (map wind_m_s df) 10.0 (hub_height s) (alpha s) ;;
  let power :=
    map (fun v => turbine_power_from_wind v (rotor_diameter s) (cp s)
                    Defaults.air_density (rated_power_kw s)
                    Defaults.cut_in Defaults.cut_out Defaults.rated_wind)
        wind_hub in
  let energy := power in
  Ok (assign df wind_hub power energy).

(** The row [derive] builds from one sample when the shear factor is
    [factor]; used to state what [derive] returns. *)
Definition derived_row (s : settings) (factor : R) (r : Sample) : Row :=
  let hub := wind_m_s r * factor in
  let power :=
    turbine_power_from_wind hub (rotor_diameter s) (cp s)
      Defaults.air_density (rated_power_kw s)
      Defaults.cut_in Defaults.cut_out Defaults.rated_wind in
  {| sample := r; wind_hub_m_s := hub; power_kW := power; energy_kWh := power |}.

(** Order of two rows by timestamp. *)
Definition time_le (a b : Sample) : Prop := (time_utc a <= time_utc b)%Z.

(** The same order on rows with derived columns. *)
Definition row_time_le (a b : Row) : Prop := time_le (sample a) (sample b).

(** ** Summary metrics and the 48-hour window (lines 151-171) *)

Definition series_sum (xs : list R) : R := fold_right Rplus 0 xs.

(** [Series.mean()]; only ever applied to a non-empty column here. *)
Definition series_mean (xs : list R) : R := series_sum xs / INR (length xs).

Definition hours (n : Z) : Z := (n * 3600 * 1000000000)%Z.

(** Line 171. *)
Definition select_next48 (now_utc : Z) (df : list Row) : list Row :=
  filter (fun r => ((now_utc <=? time_utc (sample r))
                    && (time_utc (sample r) <=? now_utc + hours 48))%Z) df.

Record dashboard : Type := {
  df : list Row;
  total_energy_next7 : R;
  avg_cf : R;
  avg_wind_hub : R;
  next48 : list Row
}.

(** What the page shows after a run whose fetches succeeded. *)
Inductive display : Type :=
| NoWindData                      (* st.error("No wind data returned.") *)
| Shown (d : dashboard).

(** Lines 139-183, from the two fetched frames on. *)
Definition process (s : settings) (now_utc : Z) (hist_df fc_df : DataFrame)
    : outcome display :=
  if empty hist_df && empty fc_df then Ok NoWindData
  else
    rows <- derive s (merge hist_df fc_df) ;;
    let total :=
      series_sum (map energy_kWh
        (filter (fun r => source_eqb (source (sample r)) forecast) rows)) in
    let cf :=
      if Rltb 0 (rated_power_kw s)
      then series_mean (map power_kW rows) / rated_power_kw s
      else 0.0 in
    Ok (Shown {| df := rows;
                 total_energy_next7 := total;
                 avg_cf := cf;
                 avg_wind_hub := series_mean (map wind_hub_m_s rows);
                 next48 := select_next48 now_utc rows |}).

(** Lines 135-183 for a chosen location: the two fetches, then the rest. An
    exception of either fetch propagates to the [except] clause, which
    shows it. [today_utc] is a day number. *)
Definition run_fetch (server : request -> reply) (s : settings)
    (lat lon : R) (today_utc now_utc : Z) : outcome display :=
  hist_df <- fetch_wind_data server lat lon
               (today_utc - history_days s) (today_utc - 1) ;;
  fc_df <- fetch_wind_data server lat lon
             today_utc (today_utc + forecast_days) ;;
  process s now_utc hist_df fc_df.

(** ** [geocode] (lines 49-54) and the choice of the location
       (lines 127-133) *)

(** One entry of the geocoder's ["results"]; only the two keys the run
    reads for computing are kept (the service sends both with every
    entry). *)
Record place_hit : Type := {
  hit_latitude : R;
  hit_longitude : R
}.

Inductive geo_reply : Type :=
| GeoUnreachable
| GeoResponse (status_code : Z) (results : option (list place_hit)).

Section Location.
(** A string is a list of characters of some type [char]; [isspace] is
    the class of characters [str.strip()] removes. *)
Variable char : Type.
Variable isspace : char -> bool.

Fixpoint lstrip (s : list char) : list char :=
  match s with
  | [] => []
  | c :: s' => if isspace c then lstrip s' else s
  end.

Definition rstrip (s : list char) : list char := rev (lstrip (rev s)).

(** [s.strip()]. *)
Definition strip (s : list char) : list char := rstrip (lstrip s).

(** The query carries [place] as typed; ["count"] is the constant 5. *)
Definition geocode (geocoder : list char -> geo_reply) (place : list char)
    : outcome (list place_hit) :=
  match geocoder place with
  | GeoUnreachable => Raise RequestException
  | GeoResponse code results =>
      _ <- raise_for_status code ;;
      Ok (dict_get results [])
  end.

(** Lines 127-132: the coordinates the fetches use, given the typed place
    and the coordinates of the two number inputs. *)
Definition resolve_location (geocoder : list char -> geo_reply)
    (place : list char) (lat lon : R) : outcome (R * R) :=
  if negb (falsy (strip place)) then
    results <- geocode geocoder place ;;
    match results with
    | chosen :: _ => Ok (hit_latitude chosen, hit_longitude chosen)
    | [] => Ok (lat, lon)
    end
  else Ok (lat, lon).

(** Lines 125-183: the whole [try] block. A [Raise e] result is what the
    [except] clause reports. *)
Definition on_run (geocoder : list char -> geo_reply)
    (server : request -> reply) (s : settings) (place : list char)
    (lat lon : R) (today_utc now_utc : Z) : outcome display :=
  loc <- resolve_location geocoder place lat lon ;;
  run_fetch server s (fst loc) (snd loc) today_utc now_utc.
End Location.

Arguments lstrip {char} isspace s.
Arguments rstrip {char} isspace s.
Arguments strip {char} isspace s.
Arguments geocode {char} geocoder place.
Arguments resolve_location {char} isspace geocoder place lat lon.
Arguments on_run {char} isspace geocoder server s place lat lon today_utc now_utc.

(** A character class for examples: code points, the space alone being
    white space. *)
Definition is_blank_char (c : Z) : bool := (c =? 32)%Z.

(** The coordinates the number inputs start with (line 105). *)
Definition default_lat : R := 17.3850.
Definition default_lon : R := 78.4867.

(** ** Facts about the comparisons *)

Lemma Rltb_true (x y : R) : Rltb x y = true <-> x < y.
Proof. unfold Rltb. destruct (Rlt_dec x y); split; intros; auto; discriminate. Qed.

Lemma Rltb_false (x y : R) : Rltb x y = false <-> y <= x.
Proof.
  unfold Rltb. destruct (Rlt_dec x y); split; intros; auto; try discriminate; lra.
Qed.

Lemma outside_true (v cut_in cut_out : R) :
  v < cut_in \/ v > cut_out -> Rltb v cut_in || Rgtb v cut_out = true.
Proof.
  intros [H | H]; apply orb_true_iff; [left | right]; unfold Rgtb;
    apply Rltb_true; lra.
Qed.

Lemma outside_false (v cut_in cut_out : R) :
  cut_in <= v <= cut_out -> Rltb v cut_in || Rgtb v cut_out = false.
Proof.
  intros [H1 H2]. apply orb_false_iff. unfold Rgtb.
  split; apply Rltb_false; assumption.
Qed.

(** ** The two branches of the power curve *)

Lemma power_outside (v d cp rho rated cut_in cut_out rw : R) :
  v < cut_in \/ v > cut_out ->
  turbine_power_from_wind v d cp rho rated cut_in cut_out rw
  = Rmin 0 (rated * 1000) / 1000.
Proof.
  intros H. unfold turbine_power_from_wind, np.where_, np.minimum.
  rewrite (outside_true _ _ _ H). f_equal; [f_equal|]; lra.
Qed.

Lemma power_inside (v d cp rho rated cut_in cut_out rw : R) :
  cut_in <= v <= cut_out ->
  turbine_power_from_wind v d cp rho rated cut_in cut_out rw
  = Rmin (aero_power_watt v d cp rho) (rated * 1000) / 1000.
Proof.
  intros H. unfold turbine_power_from_wind, np.where_, np.minimum, aero_power_watt.
  rewrite (outside_false _ _ _ H). f_equal; [f_equal|]; lra.
Qed.

Lemma Rmin_div_1000 (a b : R) : Rmin a (b * 1000) / 1000 = Rmin (a / 1000) b.
Proof.
  unfold Rmin.
  destruct (Rle_dec a (b * 1000)), (Rle_dec (a / 1000) b); lra.
Qed.

Lemma cube_nonneg (v : R) : 0 <= v -> 0 <= v ^ 3.
Proof. intros H. apply pow_le; assumption. Qed.

Lemma cube_mono (v1 v2 : R) : 0 <= v1 -> v1 <= v2 -> v1 ^ 3 <= v2 ^ 3.
Proof. intros H0 H. apply pow_incr. split; assumption. Qed.

Lemma area_nonneg (d : R) : 0 <= np.pi * (d / 2.0) ^ 2.
Proof.
  apply Rmult_le_pos.
  - left. exact PI_RGT_0.
  - apply pow2_ge_0.
Qed.

Lemma area_pos (d : R) : d <> 0 -> 0 < np.pi * (d / 2.0) ^ 2.
Proof.
  intros Hd. apply Rmult_lt_0_compat.
  - exact PI_RGT_0.
  - assert (d / 2.0 <> 0) by lra.
    assert (0 <= (d / 2.0) ^ 2) by apply pow2_ge_0.
    assert ((d / 2.0) ^ 2 <> 0) by (apply pow_nonzero; assumption).
    lra.
Qed.

Lemma aero_power_nonneg (v d cp rho : R) :
  0 <= v -> 0 <= cp -> 0 <= rho -> 0 <= aero_power_watt v d cp rho.
Proof.
  intros Hv Hcp Hrho. unfold aero_power_watt.
  pose proof (area_nonneg d) as HA. pose proof (cube_nonneg v Hv) as Hc.
  cbv zeta. set (A := np.pi * (d / 2.0) ^ 2) in *. set (c := v ^ 3) in *.
  assert (0 <= 0.5 * rho * A) by (apply Rmult_le_pos; lra).
  assert (0 <= 0.5 * rho * A * cp) by (apply Rmult_le_pos; lra).
  apply Rmult_le_pos; assumption.
Qed.

Lemma aero_power_pos (v d cp rho : R) :
  0 < v -> 0 < cp -> 0 < rho -> d <> 0 -> 0 < aero_power_watt v d cp rho.
Proof.
  intros Hv Hcp Hrho Hd. unfold aero_power_watt.
  pose proof (area_pos d Hd) as HA.
  assert (0 < v ^ 3) as Hc by (apply pow_lt; assumption).
  cbv zeta. set (A := np.pi * (d / 2.0) ^ 2) in *. set (c := v ^ 3) in *.
  assert (0 < 0.5 * rho * A) by (apply Rmult_lt_0_compat; lra).
  assert (0 < 0.5 * rho * A * cp) by (apply Rmult_lt_0_compat; lra).
  apply Rmult_lt_0_compat; assumption.
Qed.

Lemma aero_power_mono (v1 v2 d cp rho : R) :
  0 <= cp -> 0 <= rho -> 0 <= v1 -> v1 <= v2 ->
  aero_power_watt v1 d cp rho <= aero_power_watt v2 d cp rho.
Proof.
  intros Hcp Hrho H0 H. unfold aero_power_watt.
  cbv zeta. apply Rmult_le_compat_l.
  - pose proof (area_nonneg d) as HA. set (A := np.pi * (d / 2.0) ^ 2) in *.
    assert (0 <= 0.5 * rho * A) by (apply Rmult_le_pos; lra).
    apply Rmult_le_pos; lra.
  - apply cube_mono; assumption.
Qed.

(** C2: outside the operating range, that is for [v < cut_in] or
    [v > cut_out], and in particular for every negative [v] when
    [cut_in >= 0], the function returns exactly 0, whatever the cubic
    formula gives. The function is total: it is defined on every real [v].
    The rated power is non-negative, as in every turbine configuration. *)
Theorem power_zero_outside (v d cp rho rated cut_in cut_out rw : R) :
  0 <= rated ->
  v < cut_in \/ v > cut_out \/ (v < 0 /\ 0 <= cut_in) ->
  turbine_power_from_wind v d cp rho rated cut_in cut_out rw = 0.
Proof.
  intros Hr Hv.
  assert (v < cut_in \/ v > cut_out) as Hout by lra.
  rewrite power_outside by assumption.
  rewrite Rmin_left by lra. lra.
Qed.

Lemma power_zero_outside_witness :
  turbine_power_from_wind (-4) 77 0.4 1.225 1500 3.5 25 12 = 0.
Proof. apply power_zero_outside; lra. Defined.

(** C3 as stated fails: [rated_wind] is not used by the function, so when
    it lies beyond [cut_out] the interval [[cut_in, rated_wind]] contains
    speeds above cut-out, where the power falls back to 0. *)
Lemma power_not_monotone_up_to_rated_wind :
  3.5 <= 10 /\ 10 <= 26 /\ 26 <= 30 /\
  ~ (turbine_power_from_wind 10 77 0.4 1.225 1500 3.5 25 30
     <= turbine_power_from_wind 26 77 0.4 1.225 1500 3.5 25 30).
Proof.
  repeat (split; [lra|]).
  rewrite (power_outside 26) by lra.
  rewrite (Rmin_left 0) by lra.
  rewrite power_inside by lra. rewrite Rmin_div_1000.
  assert (0 < aero_power_watt 10 77 0.4 1.225) as HP
    by (apply aero_power_pos; lra).
  assert (0 < Rmin (aero_power_watt 10 77 0.4 1.225 / 1000) 1500) as Hmin
    by (apply Rmin_glb_lt; lra).
  lra.
Qed.

(** C3, amended: with the other parameters fixed, [cut_in >= 0] and
    non-negative [Cp] and air density, the power is non-decreasing in [v] on
    the part of [[cut_in, rated_wind]] that lies at or below [cut_out]. *)
Theorem power_monotone (v1 v2 d cp rho rated cut_in cut_out rw : R) :
  0 <= cp -> 0 <= rho -> 0 <= cut_in ->
  cut_in <= v1 -> v1 <= v2 -> v2 <= rw -> v2 <= cut_out ->
  turbine_power_from_wind v1 d cp rho rated cut_in cut_out rw
  <= turbine_power_from_wind v2 d cp rho rated cut_in cut_out rw.
Proof.
  intros Hcp Hrho Hci H1 H12 _ H2.
  rewrite !power_inside by lra.
  apply Rmult_le_compat_r; [lra|].
  apply Rle_min_compat_r.
  apply aero_power_mono; lra.
Qed.

Lemma power_monotone_witness :
  turbine_power_from_wind 5 77 0.4 1.225 1500 3.5 25 12
  <= turbine_power_from_wind 9 77 0.4 1.225 1500 3.5 25 12.
Proof. apply power_monotone; lra. Defined.

(** C9: rotor 77 m, Cp 0.4, air density 1.225, hub wind 12 m/s, rated power
    1500 kW, cut-in 3.5, cut-out 25: the raw aerodynamic power
    0.5 * 1.225 * (pi * 38.5^2) * 0.4 * 12^3 W exceeds 1,500,000 W and the
    function returns exactly 1500 kW. *)
Theorem rated_clamp_binds_at_12 :
  0.5 * 1.225 * (PI * 38.5 ^ 2) * 0.4 * 12 ^ 3 > 1500000 /\
  turbine_power_from_wind 12.0 77 0.4 1.225 1500 3.5 25.0 12.0 = 1500.0.
Proof.
  pose proof PI2_3_2 as Hpi.
  assert (0.5 * 1.225 * (PI * 38.5 ^ 2) * 0.4 * 12 ^ 3 > 1500000) as Hraw
    by (simpl; lra).
  split; [exact Hraw|].
  rewrite power_inside by lra.
  replace (aero_power_watt 12.0 77 0.4 1.225)
    with (0.5 * 1.225 * (PI * 38.5 ^ 2) * 0.4 * 12 ^ 3)
    by (unfold aero_power_watt, np.pi; simpl; lra).
  rewrite Rmin_right by lra. lra.
Qed.

(** ** Height extrapolation *)

Lemma float_div_nonzero (x y : R) : y <> 0 -> float_div x y = Ok (x / y).
Proof.
  intros Hy. unfold float_div. destruct (Req_dec_T y 0); [contradiction|reflexivity].
Qed.

Lemma float_pow_pos_base (x y : R) : 0 < x -> float_pow x y = Ok (Rpower x y).
Proof.
  intros Hx. unfold float_pow. destruct (Rlt_dec 0 x); [reflexivity|contradiction].
Qed.

Lemma Rpower_pos (x y : R) : 0 < Rpower x y.
Proof. unfold Rpower. apply exp_pos. Qed.

Lemma adjust_height_pos_heights (ws : list R) (z_from z_to alpha : R) :
  0 < z_from -> 0 < z_to ->
  adjust_height ws z_from z_to alpha
  = Ok (map (fun v => v * Rpower (z_to / z_from) alpha) ws).
Proof.
  intros Hf Ht. unfold adjust_height.
  rewrite float_div_nonzero by lra. simpl.
  rewrite float_pow_pos_base by (apply Rdiv_lt_0_compat; assumption).
  reflexivity.
Qed.

(** C4: for reference-height wind speeds [v_ref >= 0], heights
    [z_from > 0] and [z_to > 0] and a shear exponent in (0,1),
    [adjust_height] returns, element by element,
    [v_ref * (z_to / z_from) ^ alpha], and every returned speed is [>= 0]. *)
Theorem adjust_height_power_law (ws : list R) (z_from z_to alpha : R) :
  Forall (fun v_ref => 0 <= v_ref) ws ->
  0 < z_to -> 0 < z_from -> 0 < alpha < 1 ->
  exists hub : list R,
    adjust_height ws z_from z_to alpha = Ok hub /\
    hub = map (fun v_ref => v_ref * Rpower (z_to / z_from) alpha) ws /\
    Forall (fun v_hub => 0 <= v_hub) hub.
Proof.
  intros Hws Ht Hf _.
  eexists. split; [apply adjust_height_pos_heights; assumption|].
  split; [reflexivity|].
  apply Forall_map. eapply Forall_impl; [|exact Hws].
  intros v Hv. simpl. apply Rmult_le_pos; [assumption|].
  left. apply Rpower_pos.
Qed.

Lemma adjust_height_power_law_witness :
  exists hub : list R,
    adjust_height [8.0; 0] 10.0 80.0 0.14 = Ok hub /\
    hub = map (fun v_ref => v_ref * Rpower (80.0 / 10.0) 0.14) [8.0; 0] /\
    Forall (fun v_hub => 0 <= v_hub) hub.
Proof.
  apply adjust_height_power_law; [repeat constructor; lra | lra | lra | lra].
Defined.

(** ** Fetching *)

Section Fetch.
Variable server : request -> reply.
Variables lat lon : R.
Variables first_day last_day : Z.

Variable params : request.
Hypothesis params_eq :
  params = {| latitude := lat; longitude := lon;
              start_date := first_day; end_date := last_day |}.

(** A transport failure surfaces as the exception of [requests.get]. *)
Lemma fetch_unreachable :
  server params = Unreachable ->
  fetch_wind_data server lat lon first_day last_day = Raise RequestException.
Proof.
  intros H. unfold fetch_wind_data, requests_get. rewrite <- params_eq.
  rewrite H. reflexivity.
Qed.

(** An error status surfaces as [HTTPError]. *)
Lemma fetch_http_error (code : Z) (body : option hourly_json) :
  server params = Response code body ->
  (400 <= code < 600)%Z ->
  fetch_wind_data server lat lon first_day last_day = Raise (HTTPError code).
Proof.
  intros H Hc. unfold fetch_wind_data, requests_get. rewrite <- params_eq.
  rewrite H. simpl. unfold raise_for_status.
  replace ((400 <=? code)%Z && (code <? 600)%Z) with true; [reflexivity|].
  symmetry. apply andb_true_iff. split; [apply Z.leb_le | apply Z.ltb_lt]; lia.
Qed.

(** No timestamps (the ["hourly"] object or its ["time"] key absent, or
    an empty ["time"] array): the empty frame, whatever the wind array. *)
Lemma fetch_no_times (code : Z) (body : option hourly_json) :
  server params = Response code body ->
  raise_for_status code = Ok tt ->
  dict_get (time (dict_get body {| time := None; windspeed_10m := None |})) []
  = [] ->
  fetch_wind_data server lat lon first_day last_day = Ok [].
Proof.
  intros H Hc Ht. unfold fetch_wind_data, requests_get. rewrite <- params_eq.
  rewrite H. simpl. rewrite Hc. simpl. rewrite Ht. reflexivity.
Qed.

(** Timestamps and as many wind speeds: the zipped frame. *)
Lemma fetch_zips (code : Z) (times : list Z) (ws : list R) :
  server params
  = Response code (Some {| time := Some times; windspeed_10m := Some ws |}) ->
  raise_for_status code = Ok tt ->
  times <> [] -> length times = length ws ->
  fetch_wind_data server lat lon first_day last_day = Ok (combine times ws).
Proof.
  intros H Hc Hne Hlen. unfold fetch_wind_data, requests_get. rewrite <- params_eq.
  rewrite H. simpl. rewrite Hc. simpl.
  destruct times as [|t times']; [contradiction|]. simpl falsy. cbv iota.
  unfold pd_DataFrame. rewrite Hlen, Nat.eqb_refl. reflexivity.
Qed.
End Fetch.

(** C5, the case the code misses: a response with a non-empty ["time"]
    array and no ["windspeed_10m"] key is not read as "no data";
    building the frame from columns of different length raises
    [ValueError]. *)
Theorem fetch_missing_windspeed_raises (lat lon : R) (start_date end_date t : Z) :
  fetch_wind_data
    (fun _ => Response 200 (Some {| time := Some [t]; windspeed_10m := None |}))
    lat lon start_date end_date
  = Raise ValueError.
Proof. reflexivity. Qed.

(** ** Sorting by timestamp *)

Lemma insert_by_time_perm (x : Sample) (l : list Sample) :
  Permutation (x :: l) (insert_by_time x l).
Proof.
  induction l as [|y l IH]; simpl.
  - apply Permutation_refl.
  - destruct (time_utc x <=? time_utc y)%Z.
    + apply Permutation_refl.
    + eapply perm_trans; [apply perm_swap|]. apply perm_skip. exact IH.
Qed.

Lemma sort_values_perm (l : list Sample) : Permutation l (sort_values l).
Proof.
  induction l as [|x l IH]; simpl.
  - apply perm_nil.
  - eapply perm_trans; [|apply insert_by_time_perm].
    apply perm_skip. exact IH.
Qed.

Lemma insert_by_time_hd (a x : Sample) (l : list Sample) :
  time_le a x -> HdRel time_le a l -> HdRel time_le a (insert_by_time x l).
Proof.
  intros Hax Hal. destruct l as [|y l]; simpl.
  - constructor. exact Hax.
  - destruct (time_utc x <=? time_utc y)%Z; constructor.
    + exact Hax.
    + inversion Hal; assumption.
Qed.

Lemma insert_by_time_sorted (x : Sample) (l : list Sample) :
  Sorted time_le l -> Sorted time_le (insert_by_time x l).
Proof.
  induction l as [|y l IH]; intros Hs; simpl.
  - repeat constructor.
  - destruct (time_utc x <=? time_utc y)%Z eqn:E.
    + constructor; [exact Hs|]. constructor. apply Z.leb_le. exact E.
    + inversion Hs as [|? ? Hl Hy]; subst.
      constructor; [apply IH; exact Hl|].
      apply insert_by_time_hd; [|exact Hy].
      unfold time_le. apply Z.leb_gt in E. lia.
Qed.

Lemma sort_values_sorted (l : list Sample) : Sorted time_le (sort_values l).
Proof.
  induction l as [|x l IH]; simpl.
  - constructor.
  - apply insert_by_time_sorted. exact IH.
Qed.

Lemma time_le_trans : Relations_1.Transitive time_le.
Proof. intros a b c Hab Hbc. unfold time_le in *. lia. Qed.

Lemma sort_values_strongly_sorted (l : list Sample) :
  StronglySorted time_le (sort_values l).
Proof.
  apply Sorted_StronglySorted; [exact time_le_trans | apply sort_values_sorted].
Qed.

(** ** Merging *)

Lemma set_source_nil_when_empty (tag : source_tag) (d : DataFrame) :
  (if negb (empty d) then set_source tag d else []) = set_source tag d.
Proof. destruct d; reflexivity. Qed.

Lemma merge_eq (hist fc : DataFrame) :
  merge hist fc
  = sort_values (set_source history hist ++ set_source forecast fc).
Proof. unfold merge. cbv zeta. rewrite !set_source_nil_when_empty. reflexivity. Qed.

Lemma merge_perm (hist fc : DataFrame) :
  Permutation (set_source history hist ++ set_source forecast fc)
              (merge hist fc).
Proof. rewrite merge_eq. apply sort_values_perm. Qed.

Lemma merge_length (hist fc : DataFrame) :
  length (merge hist fc) = (length hist + length fc)%nat.
Proof.
  rewrite <- (Permutation_length (merge_perm hist fc)).
  unfold set_source. rewrite length_app, !length_map. reflexivity.
Qed.

Lemma merge_times (hist fc : DataFrame) :
  Permutation (map fst (hist ++ fc)) (map time_utc (merge hist fc)).
Proof.
  eapply perm_trans; [|apply Permutation_map; apply merge_perm].
  unfold set_source. rewrite !map_app, !map_map. simpl.
  apply Permutation_refl.
Qed.

(** ** Derived columns *)

Lemma assign_rows (s : settings) (factor : R) (l : list Sample) :
  let hub := map (fun w => w * factor) (map wind_m_s l) in
  let power :=
    map (fun v => turbine_power_from_wind v (rotor_diameter s) (cp s)
                    Defaults.air_density (rated_power_kw s)
                    Defaults.cut_in Defaults.cut_out Defaults.rated_wind) hub in
  assign l hub power power = map (derived_row s factor) l.
Proof.
  induction l as [|r l IH]; simpl in *.
  - reflexivity.
  - rewrite IH. reflexivity.
Qed.

Lemma derive_rows (s : settings) (l : list Sample) :
  0 < hub_height s ->
  derive s l
  = Ok (map (derived_row s (Rpower (hub_height s / 10.0) (alpha s))) l).
Proof.
  intros Hh. unfold derive.
  rewrite adjust_height_pos_heights by lra. simpl bind.
  f_equal. apply assign_rows.
Qed.

Lemma sample_derived_rows (s : settings) (factor : R) (l : list Sample) :
  map sample (map (derived_row s factor) l) = l.
Proof.
  rewrite map_map. simpl. apply map_id.
Qed.

(** ** The pipeline after the fetches *)

Lemma process_both_empty (s : settings) (now_utc : Z) :
  process s now_utc [] [] = Ok NoWindData.
Proof. reflexivity. Qed.

Lemma not_both_empty (hist fc : DataFrame) :
  hist <> [] \/ fc <> [] -> empty hist && empty fc = false.
Proof.
  intros [H | H]; [destruct hist | destruct fc]; try contradiction;
    simpl; [reflexivity | apply andb_false_r].
Qed.

Lemma process_some_data (s : settings) (now_utc : Z) (hist fc : DataFrame) :
  0 < hub_height s -> hist <> [] \/ fc <> [] ->
  exists d : dashboard,
    process s now_utc hist fc = Ok (Shown d) /\
    df d = map (derived_row s (Rpower (hub_height s / 10.0) (alpha s)))
               (merge hist fc) /\
    next48 d = select_next48 now_utc (df d).
Proof.
  intros Hh Hne. unfold process.
  rewrite (not_both_empty _ _ Hne), (derive_rows _ _ Hh). simpl bind.
  eexists. split; [reflexivity|]. split; reflexivity.
Qed.

Lemma process_no_data_inv (s : settings) (now_utc : Z) (hist fc : DataFrame) :
  process s now_utc hist fc = Ok NoWindData -> hist = [] /\ fc = [].
Proof.
  unfold process. destruct hist as [|h hist], fc as [|f fc]; simpl empty;
    cbv iota; simpl andb; cbv iota; intros H; try (split; reflexivity);
    destruct (derive s _); simpl in H; discriminate.
Qed.

(** C6 as stated fails: the merged frame is sorted but not deduplicated. A
    timestamp present on both sides stays twice. *)
Lemma merge_keeps_duplicate_timestamps :
  map time_utc (merge [(0%Z, 5)] [(0%Z, 6)]) = [0%Z; 0%Z] /\
  ~ NoDup (map time_utc (merge [(0%Z, 5)] [(0%Z, 6)])).
Proof.
  assert (map time_utc (merge [(0%Z, 5)] [(0%Z, 6)]) = [0%Z; 0%Z]) as E
    by reflexivity.
  split; [exact E|]. rewrite E. intros H.
  inversion H as [|? ? Hnotin _]; subst. apply Hnotin. left. reflexivity.
Qed.

(** C6, amended: for every pair of history and forecast frames the merged
    frame is sorted by timestamp and keeps every row of both sides (it has
    no repeated timestamp exactly when the two sides together have none),
    and the derived columns are computed on that sorted frame, row by
    row. *)
Theorem merge_sorted_before_derivation
    (s : settings) (hist fc : DataFrame) :
  0 < hub_height s ->
  StronglySorted time_le (merge hist fc) /\
  Permutation (set_source history hist ++ set_source forecast fc)
              (merge hist fc) /\
  (NoDup (map time_utc (merge hist fc)) <-> NoDup (map fst (hist ++ fc))) /\
  exists rows : list Row,
    derive s (merge hist fc) = Ok rows /\ map sample rows = merge hist fc.
Proof.
  intros Hh. split; [|split; [|split]].
  - rewrite merge_eq. apply sort_values_strongly_sorted.
  - apply merge_perm.
  - pose proof (merge_times hist fc) as P. split; intros H.
    + eapply Permutation_NoDup; [apply Permutation_sym; exact P | exact H].
    + eapply Permutation_NoDup; [exact P | exact H].
  - eexists. split; [apply derive_rows; exact Hh|].
    apply sample_derived_rows.
Qed.

Lemma merge_sorted_before_derivation_witness :
  StronglySorted time_le (merge [(7%Z, 3)] [(2%Z, 4)]) /\
  Permutation (set_source history [(7%Z, 3)] ++ set_source forecast [(2%Z, 4)])
              (merge [(7%Z, 3)] [(2%Z, 4)]) /\
  (NoDup (map time_utc (merge [(7%Z, 3)] [(2%Z, 4)]))
   <-> NoDup (map fst ([(7%Z, 3)] ++ [(2%Z, 4)]))) /\
  exists rows : list Row,
    derive sidebar_defaults (merge [(7%Z, 3)] [(2%Z, 4)]) = Ok rows /\
    map sample rows = merge [(7%Z, 3)] [(2%Z, 4)].
Proof.
  apply (merge_sorted_before_derivation sidebar_defaults). simpl. lra.
Defined.

(** C7: both fetched frames are empty if and only if the run shows "No
    wind data returned." and nothing else; otherwise it goes on to the
    dashboard, whose rows are exactly the rows of the two sides, an empty
    side adding none. The hub height is positive (the sidebar keeps it in
    [[10, 200]]). *)
Theorem no_data_iff_both_empty
    (s : settings) (now_utc : Z) (hist fc : DataFrame) :
  0 < hub_height s ->
  (process s now_utc hist fc = Ok NoWindData <-> hist = [] /\ fc = []) /\
  ((hist = [] /\ fc = []) \/
   exists d : dashboard,
     process s now_utc hist fc = Ok (Shown d) /\
     map sample (df d) = merge hist fc /\
     Permutation (set_source history hist ++ set_source forecast fc)
                 (map sample (df d)) /\
     length (df d) = (length hist + length fc)%nat).
Proof.
  intros Hh. split.
  - split.
    + apply process_no_data_inv.
    + intros [-> ->]. apply process_both_empty.
  - destruct hist as [|h hist]; [destruct fc as [|f fc]|].
    + left. split; reflexivity.
    + right.
      destruct (process_some_data s now_utc [] (f :: fc) Hh) as (d & Hp & Hd & _);
        [right; discriminate|].
      exists d. rewrite Hd, sample_derived_rows, length_map, merge_length.
      repeat split; [exact Hp | apply merge_perm].
    + right.
      destruct (process_some_data s now_utc (h :: hist) fc Hh) as (d & Hp & Hd & _);
        [left; discriminate|].
      exists d. rewrite Hd, sample_derived_rows, length_map, merge_length.
      repeat split; [exact Hp | apply merge_perm].
Qed.

Lemma no_data_iff_both_empty_witness :
  (process sidebar_defaults 0 [(7%Z, 3)] [] = Ok NoWindData
   <-> [(7%Z, 3)] = [] /\ @nil (Z * R) = []) /\
  (([(7%Z, 3)] = [] /\ @nil (Z * R) = []) \/
   exists d : dashboard,
     process sidebar_defaults 0 [(7%Z, 3)] [] = Ok (Shown d) /\
     map sample (df d) = merge [(7%Z, 3)] [] /\
     Permutation (set_source history [(7%Z, 3)] ++ set_source forecast [])
                 (map sample (df d)) /\
     length (df d) = (length [(7%Z, 3)] + length (@nil (Z * R)))%nat).
Proof.
  apply (no_data_iff_both_empty sidebar_defaults). simpl. lra.
Defined.

(** C8: for every frame and every instant [now], a row is in the 48-hour
    selection exactly when it is a row of the frame whose timestamp lies in
    the closed interval [[now, now + 48h]]; no row outside it is selected. *)
Theorem next48_inside_window (now_utc : Z) (rows : list Row) (r : Row) :
  In r (select_next48 now_utc rows) <->
  In r rows /\
  (now_utc <= time_utc (sample r) <= now_utc + 48 * 3600 * 1000000000)%Z.
Proof.
  unfold select_next48, hours. rewrite filter_In, andb_true_iff.
  rewrite Z.leb_le, Z.leb_le. reflexivity.
Qed.

(** The window shown by a run is that selection, taken from the run's own
    merged frame. *)
Lemma process_next48 (s : settings) (now_utc : Z) (hist fc : DataFrame)
    (d : dashboard) :
  process s now_utc hist fc = Ok (Shown d) ->
  next48 d = select_next48 now_utc (df d).
Proof.
  unfold process. destruct (empty hist && empty fc); [discriminate|].
  destruct (derive s (merge hist fc)); simpl; intros H; try discriminate.
  injection H as <-. reflexivity.
Qed.

(** A run whose two fetches succeed continues with [process]. *)
Lemma run_fetch_after_fetches (server : request -> reply) (s : settings)
    (lat lon : R) (today_utc now_utc : Z) (hist fc : DataFrame) :
  fetch_wind_data server lat lon (today_utc - history_days s) (today_utc - 1)
  = Ok hist ->
  fetch_wind_data server lat lon today_utc (today_utc + forecast_days) = Ok fc ->
  run_fetch server s lat lon today_utc now_utc = process s now_utc hist fc.
Proof. intros Hh Hf. unfold run_fetch. rewrite Hh, Hf. reflexivity. Qed.

(** * Further properties of the code *)

(** ** The power curve beyond the configuration constraints *)

Lemma power_mono_inside (v1 v2 d cp rho rated cut_in cut_out rw : R) :
  0 <= cp -> 0 <= rho -> 0 <= cut_in ->
  cut_in <= v1 -> v1 <= v2 -> v2 <= cut_out ->
  turbine_power_from_wind v1 d cp rho rated cut_in cut_out rw
  <= turbine_power_from_wind v2 d cp rho rated cut_in cut_out rw.
Proof.
  intros Hcp Hrho Hci H1 H12 H2.
  rewrite !power_inside by lra. rewrite !Rmin_div_1000.
  apply Rle_min_compat_r.
  pose proof (aero_power_mono v1 v2 d cp rho Hcp Hrho) as Hm. lra.
Qed.

(** X2: With positive rotor diameter, Cp, air density, rated power and cut-in
    speed, the power is 0 exactly outside [[cut_in, cut_out]]: inside
    the range the turbine always produces. *)
Theorem power_zero_iff_outside (v d cp rho rated cut_in cut_out rw : R) :
  0 < rated -> 0 < cut_in -> d <> 0 -> 0 < rho -> 0 < cp ->
  (turbine_power_from_wind v d cp rho rated cut_in cut_out rw = 0
   <-> v < cut_in \/ v > cut_out).
Proof.
  intros Hr Hci Hd Hrho Hcp. split.
  - intros H0.
    destruct (Rlt_dec v cut_in) as [Hlo | Hlo]; [left; exact Hlo|].
    destruct (Rlt_dec cut_out v) as [Hhi | Hhi]; [right; exact Hhi|].
    exfalso. rewrite power_inside in H0 by lra. rewrite Rmin_div_1000 in H0.
    assert (0 < aero_power_watt v d cp rho) as HP
      by (apply aero_power_pos; lra).
    assert (0 < Rmin (aero_power_watt v d cp rho / 1000) rated)
      by (apply Rmin_glb_lt; lra).
    lra.
  - intros Hout. rewrite power_outside by exact Hout.
    rewrite Rmin_left by lra. lra.
Qed.

Lemma power_zero_iff_outside_witness :
  turbine_power_from_wind 2 77 0.4 1.225 1500 3.5 25 12 = 0
  <-> 2 < 3.5 \/ 2 > 25.
Proof. apply power_zero_iff_outside; lra. Defined.

(** X3: Once the rated power is reached it is held up to cut-out: if the
    result at [v0] is the rated power, so is the result at every speed
    between [v0] and [cut_out]. *)
Theorem power_plateau (v0 v d cp rho rated cut_in cut_out rw : R) :
  0 <= cp -> 0 <= rho -> 0 <= cut_in ->
  cut_in <= v0 -> v0 <= v -> v <= cut_out ->
  turbine_power_from_wind v0 d cp rho rated cut_in cut_out rw = rated ->
  turbine_power_from_wind v d cp rho rated cut_in cut_out rw = rated.
Proof.
  intros Hcp Hrho Hci H0 H0v Hv Hrated.
  pose proof (power_mono_inside v0 v d cp rho rated cut_in cut_out rw
                Hcp Hrho Hci H0 H0v Hv) as Hm.
  assert (turbine_power_from_wind v d cp rho rated cut_in cut_out rw <= rated).
  { unfold turbine_power_from_wind, np.minimum. cbv zeta.
    match goal with |- Rmin ?a ?b / _ <= _ => pose proof (Rmin_r a b) end.
    lra. }
  lra.
Qed.

Lemma rated_at_12 :
  turbine_power_from_wind 12 77 0.4 1.225 1500 3.5 25 12 = 1500.
Proof.
  pose proof PI2_3_2 as Hpi.
  rewrite power_inside by lra. rewrite Rmin_div_1000.
  apply Rmin_right. unfold aero_power_watt, np.pi. simpl. lra.
Qed.

Lemma power_plateau_witness :
  turbine_power_from_wind 20 77 0.4 1.225 1500 3.5 25 12 = 1500.
Proof.
  apply (power_plateau 12 20); try lra. exact rated_at_12.
Defined.

(** ** Height extrapolation: edge cases and composition *)

Lemma Rpower_one_base (y : R) : Rpower 1 y = 1.
Proof. unfold Rpower. rewrite ln_1, Rmult_0_r. apply exp_0. Qed.

Lemma Rpower_ge_1 (x y : R) : 1 <= x -> 0 <= y -> 1 <= Rpower x y.
Proof.
  intros Hx Hy. unfold Rpower.
  assert (0 <= ln x) as Hln.
  { destruct Hx as [Hx | <-]; [|rewrite ln_1; lra].
    left. rewrite <- ln_1. apply ln_increasing; lra. }
  assert (0 <= y * ln x) as Hp by (apply Rmult_le_pos; assumption).
  destruct Hp as [Hp | <-]; [|rewrite exp_0; lra].
  left. rewrite <- exp_0. apply exp_increasing. exact Hp.
Qed.

Lemma map_mult_one (ws : list R) : map (fun w => w * 1) ws = ws.
Proof.
  induction ws as [|w ws IH]; simpl; [reflexivity|].
  rewrite IH. f_equal. lra.
Qed.

(** X4: Equal heights change nothing: for any non-zero height [z] and any
    exponent the column comes back as it was. *)
Theorem adjust_height_same_height (ws : list R) (z alpha : R) :
  z <> 0 -> adjust_height ws z z alpha = Ok ws.
Proof.
  intros Hz. unfold adjust_height.
  rewrite float_div_nonzero by exact Hz. simpl bind.
  replace (z / z) with 1 by (field; exact Hz).
  rewrite float_pow_pos_base by lra. simpl bind.
  rewrite Rpower_one_base, map_mult_one. reflexivity.
Qed.

Lemma adjust_height_same_height_witness :
  adjust_height [8.0; 3.0] 10.0 10.0 0.14 = Ok [8.0; 3.0].
Proof. apply adjust_height_same_height. lra. Defined.

(** X5: A reference height of 0 raises [ZeroDivisionError], whatever the other
    arguments, even on an empty column. *)
Theorem adjust_height_zero_reference (ws : list R) (z_to alpha : R) :
  adjust_height ws 0 z_to alpha = Raise ZeroDivisionError.
Proof.
  unfold adjust_height, float_div.
  destruct (Req_dec_T 0 0) as [_ | H]; [reflexivity | contradiction H; reflexivity].
Qed.

(** X7: A hub at or above the reference height never lowers a non-negative
    wind speed (non-negative exponent). *)
Theorem adjust_height_not_below_reference (ws : list R) (z_from z_to alpha : R) :
  0 < z_from -> z_from <= z_to -> 0 <= alpha ->
  Forall (fun w => 0 <= w) ws ->
  exists hub : list R,
    adjust_height ws z_from z_to alpha = Ok hub /\ Forall2 Rle ws hub.
Proof.
  intros Hf Hft Ha Hws.
  eexists. split; [apply adjust_height_pos_heights; lra|].
  assert (1 <= Rpower (z_to / z_from) alpha) as Hfac.
  { apply Rpower_ge_1; [|exact Ha].
    apply Rmult_le_reg_r with z_from; [exact Hf|].
    unfold Rdiv. rewrite Rmult_assoc, Rinv_l by lra. lra. }
  induction Hws as [|w ws Hw _ IH]; simpl; constructor; [|exact IH].
  nra.
Qed.

Lemma adjust_height_not_below_reference_witness :
  exists hub : list R,
    adjust_height [8.0; 0] 10.0 80.0 0.14 = Ok hub /\ Forall2 Rle [8.0; 0] hub.
Proof.
  apply adjust_height_not_below_reference; try lra.
  repeat constructor; lra.
Defined.

(** ** What a fetch can return *)

Lemma raise_for_status_ok (code : Z) :
  ~ (400 <= code < 600)%Z -> raise_for_status code = Ok tt.
Proof.
  intros H. unfold raise_for_status.
  destruct ((400 <=? code)%Z && (code <? 600)%Z) eqn:E; [|reflexivity].
  apply andb_true_iff in E. destruct E as [E1 E2].
  apply Z.leb_le in E1. apply Z.ltb_lt in E2. exfalso. apply H. lia.
Qed.

Lemma raise_for_status_raises (code : Z) :
  (400 <= code < 600)%Z -> raise_for_status code = Raise (HTTPError code).
Proof.
  intros H. unfold raise_for_status.
  replace ((400 <=? code)%Z && (code <? 600)%Z) with true; [reflexivity|].
  symmetry. apply andb_true_iff. split; [apply Z.leb_le | apply Z.ltb_lt]; lia.
Qed.

Lemma raise_for_status_cases (code : Z) :
  (~ (400 <= code < 600)%Z /\ raise_for_status code = Ok tt) \/
  ((400 <= code < 600)%Z /\ raise_for_status code = Raise (HTTPError code)).
Proof.
  destruct (Z_le_dec 400 code); [destruct (Z_lt_dec code 600)|].
  - right. split; [lia | apply raise_for_status_raises; lia].
  - left. split; [lia | apply raise_for_status_ok; lia].
  - left. split; [lia | apply raise_for_status_ok; lia].
Qed.

Lemma combine_fst {A B : Type} (l : list A) (l' : list B) :
  length l = length l' -> map fst (combine l l') = l.
Proof.
  revert l'. induction l as [|a l IH]; intros [|b l'] H; simpl in *;
    try discriminate; [reflexivity|].
  f_equal. apply IH. lia.
Qed.

Lemma combine_snd {A B : Type} (l : list A) (l' : list B) :
  length l = length l' -> map snd (combine l l') = l'.
Proof.
  revert l'. induction l as [|a l IH]; intros [|b l'] H; simpl in *;
    try discriminate; [reflexivity|].
  f_equal. apply IH. lia.
Qed.

(** X8: A fetch that succeeds got a response whose status is no error status;
    the timestamps of the frame are the response's time array, in order,
    and unless that array is missing or empty the wind column is the
    response's wind array. *)
Theorem fetch_success_shape (server : request -> reply) (lat lon : R)
    (first_day last_day : Z) (frame : DataFrame) :
  fetch_wind_data server lat lon first_day last_day = Ok frame ->
  exists (code : Z) (body : option hourly_json),
    server {| latitude := lat; longitude := lon;
              start_date := first_day; end_date := last_day |}
    = Response code body /\
    ~ (400 <= code < 600)%Z /\
    let hourly := dict_get body {| time := None; windspeed_10m := None |} in
    map fst frame = dict_get (time hourly) [] /\
    (dict_get (time hourly) [] = [] \/
     map snd frame = dict_get (windspeed_10m hourly) []).
Proof.
  unfold fetch_wind_data, requests_get. cbv zeta.
  destruct (server _) as [|code body]; simpl bind; [discriminate|].
  destruct (raise_for_status_cases code) as [[Hc ->] | [Hc ->]];
    simpl bind; [|discriminate].
  intros H. exists code, body. split; [reflexivity|]. split; [exact Hc|].
  simpl fst in H. simpl snd in H. cbv zeta.
  destruct (dict_get (time _) []) as [|t times] eqn:Et; simpl falsy in H; cbv iota in H.
  - injection H as <-. split; [reflexivity | left; reflexivity].
  - unfold pd_DataFrame in H.
    destruct (Nat.eqb _ _) eqn:El; [|discriminate].
    apply Nat.eqb_eq in El. injection H as <-.
    split; [exact (combine_fst (t :: times) _ El)
          | right; exact (combine_snd (t :: times) _ El)].
Qed.

Lemma fetch_success_shape_witness :
  exists (code : Z) (body : option hourly_json),
    (fun _ : request =>
       Response 200 (Some {| time := Some [0%Z]; windspeed_10m := Some [5] |}))
      {| latitude := 17; longitude := 78; start_date := 1; end_date := 2 |}
    = Response code body /\
    ~ (400 <= code < 600)%Z /\
    let hourly := dict_get body {| time := None; windspeed_10m := None |} in
    map fst [(0%Z, 5)] = dict_get (time hourly) [] /\
    (dict_get (time hourly) [] = [] \/
     map snd [(0%Z, 5)] = dict_get (windspeed_10m hourly) []).
Proof.
  apply (fetch_success_shape
           (fun _ => Response 200
              (Some {| time := Some [0%Z]; windspeed_10m := Some [5] |}))
           17 78 1 2 [(0%Z, 5)]).
  reflexivity.
Defined.

(** X9: When the service is unreachable or answers with a well-formed
    JSON body (the replies of type [reply]), a fetch raises for one of
    three reasons only: no response ([RequestException]), an error status
    400-599 ([HTTPError] with that status), or a non-empty time array next
    to a wind array of another length ([ValueError]). A body that is not
    JSON or a time string that cannot be read raises as well and lies
    outside this statement. *)
Theorem fetch_failure_causes (server : request -> reply) (lat lon : R)
    (first_day last_day : Z) (e : exn) :
  fetch_wind_data server lat lon first_day last_day = Raise e ->
  let params := {| latitude := lat; longitude := lon;
                   start_date := first_day; end_date := last_day |} in
  (server params = Unreachable /\ e = RequestException) \/
  (exists code body,
     server params = Response code body /\
     (400 <= code < 600)%Z /\ e = HTTPError code) \/
  (exists code body,
     server params = Response code body /\
     ~ (400 <= code < 600)%Z /\ e = ValueError /\
     let hourly := dict_get body {| time := None; windspeed_10m := None |} in
     dict_get (time hourly) [] <> [] /\
     length (dict_get (time hourly) [])
     <> length (dict_get (windspeed_10m hourly) [])).
Proof.
  unfold fetch_wind_data, requests_get. cbv zeta.
  destruct (server _) as [|code body]; simpl bind.
  - intros H. injection H as <-. left. split; reflexivity.
  - destruct (raise_for_status_cases code) as [[Hc ->] | [Hc ->]]; simpl bind.
    + simpl fst. simpl snd. intros H. right. right. exists code, body.
      split; [reflexivity|]. split; [exact Hc|].
      destruct (dict_get (time _) []) as [|t times] eqn:Et;
        simpl falsy in H; cbv iota in H; [discriminate|].
      unfold pd_DataFrame in H.
      destruct (Nat.eqb _ _) eqn:El; [discriminate|].
      apply Nat.eqb_neq in El. injection H as <-.
      split; [reflexivity|]. split; [discriminate | exact El].
    + intros H. injection H as <-. right. left. exists code, body.
      split; [reflexivity|]. split; [exact Hc | reflexivity].
Qed.

Lemma fetch_failure_causes_witness :
  let server := fun _ : request => Response 503 None in
  let params := {| latitude := 17; longitude := 78;
                   start_date := 1; end_date := 2 |} in
  (server params = Unreachable /\ HTTPError 503 = RequestException) \/
  (exists code body,
     server params = Response code body /\
     (400 <= code < 600)%Z /\ HTTPError 503 = HTTPError code) \/
  (exists code body,
     server params = Response code body /\
     ~ (400 <= code < 600)%Z /\ HTTPError 503 = ValueError /\
     let hourly := dict_get body {| time := None; windspeed_10m := None |} in
     dict_get (time hourly) [] <> [] /\
     length (dict_get (time hourly) [])
     <> length (dict_get (windspeed_10m hourly) [])).
Proof.
  apply (fetch_failure_causes (fun _ => Response 503 None) 17 78 1 2
           (HTTPError 503)).
  reflexivity.
Defined.

(** X10: An error status raises [HTTPError] whatever the body carries, even a
    complete pair of arrays. *)
Theorem fetch_error_status_raises (server : request -> reply) (lat lon : R)
    (first_day last_day code : Z) (body : option hourly_json) :
  server {| latitude := lat; longitude := lon;
            start_date := first_day; end_date := last_day |}
  = Response code body ->
  (400 <= code < 600)%Z ->
  fetch_wind_data server lat lon first_day last_day = Raise (HTTPError code).
Proof.
  intros H Hc. unfold fetch_wind_data, requests_get. rewrite H. simpl bind.
  simpl fst. rewrite raise_for_status_raises by exact Hc. reflexivity.
Qed.

Lemma fetch_error_status_raises_witness :
  fetch_wind_data
    (fun _ => Response 404
       (Some {| time := Some [0%Z]; windspeed_10m := Some [5] |}))
    17 78 1 2
  = Raise (HTTPError 404).
Proof.
  apply (fetch_error_status_raises _ 17 78 1 2 404
           (Some {| time := Some [0%Z]; windspeed_10m := Some [5] |}));
    [reflexivity | lia].
Defined.

(** X11: Wind values that come without timestamps are dropped without a word:
    when the time array is missing or empty the frame is empty, whatever
    the wind array holds. *)
Theorem fetch_wind_without_times (server : request -> reply) (lat lon : R)
    (first_day last_day code : Z) (times : option (list Z))
    (ws : option (list R)) :
  server {| latitude := lat; longitude := lon;
            start_date := first_day; end_date := last_day |}
  = Response code (Some {| time := times; windspeed_10m := ws |}) ->
  ~ (400 <= code < 600)%Z ->
  times = None \/ times = Some [] ->
  fetch_wind_data server lat lon first_day last_day = Ok [].
Proof.
  intros H Hc Ht. unfold fetch_wind_data, requests_get. rewrite H. simpl bind.
  simpl fst. rewrite raise_for_status_ok by exact Hc. simpl bind.
  destruct Ht as [-> | ->]; reflexivity.
Qed.

Lemma fetch_wind_without_times_witness :
  fetch_wind_data
    (fun _ => Response 200
       (Some {| time := None; windspeed_10m := Some [5; 6] |}))
    17 78 1 2
  = Ok [].
Proof.
  apply (fetch_wind_without_times _ 17 78 1 2 200 None (Some [5; 6]));
    [reflexivity | lia | left; reflexivity].
Defined.

(** X12: A wind array shorter or longer than a non-empty time array is not
    padded or cut: the fetch raises [ValueError]. *)
Theorem fetch_length_mismatch_raises (server : request -> reply) (lat lon : R)
    (first_day last_day code : Z) (times : list Z) (ws : list R) :
  server {| latitude := lat; longitude := lon;
            start_date := first_day; end_date := last_day |}
  = Response code (Some {| time := Some times; windspeed_10m := Some ws |}) ->
  ~ (400 <= code < 600)%Z ->
  times <> [] -> length times <> length ws ->
  fetch_wind_data server lat lon first_day last_day = Raise ValueError.
Proof.
  intros H Hc Hne Hlen. unfold fetch_wind_data, requests_get. rewrite H.
  simpl bind. simpl fst. rewrite raise_for_status_ok by exact Hc. simpl bind.
  simpl snd. simpl dict_get.
  destruct times as [|t times]; [contradiction|]. simpl falsy. cbv iota.
  unfold pd_DataFrame. apply Nat.eqb_neq in Hlen. rewrite Hlen. reflexivity.
Qed.

Lemma fetch_length_mismatch_raises_witness :
  fetch_wind_data
    (fun _ => Response 200
       (Some {| time := Some [0%Z; 1%Z]; windspeed_10m := Some [5] |}))
    17 78 1 2
  = Raise ValueError.
Proof.
  apply (fetch_length_mismatch_raises _ 17 78 1 2 200 [0%Z; 1%Z] [5]);
    [reflexivity | lia | discriminate | simpl; lia].
Defined.

(** ** Provenance through the merge *)

Lemma Permutation_filter_compat {A : Type} (f : A -> bool) (l l' : list A) :
  Permutation l l' -> Permutation (filter f l) (filter f l').
Proof.
  induction 1 as [|x l l' _ IH|x y l|l l' l'' _ IH1 _ IH2]; simpl.
  - apply perm_nil.
  - destruct (f x); [apply perm_skip|]; exact IH.
  - destruct (f x), (f y); try apply Permutation_refl. apply perm_swap.
  - eapply perm_trans; eassumption.
Qed.

Lemma filter_set_source (tag tag' : source_tag) (d : DataFrame) :
  filter (fun r => source_eqb (source r) tag') (set_source tag d)
  = if source_eqb tag tag' then set_source tag d else [].
Proof.
  induction d as [|x d IH]; simpl.
  - destruct (source_eqb tag tag'); reflexivity.
  - rewrite IH. destruct (source_eqb tag tag'); reflexivity.
Qed.

Lemma merge_sources_perm (hist fc : DataFrame) :
  Permutation (filter (fun r => source_eqb (source r) forecast) (merge hist fc))
              (set_source forecast fc) /\
  Permutation (filter (fun r => source_eqb (source r) history) (merge hist fc))
              (set_source history hist).
Proof.
  split.
  - eapply perm_trans;
      [apply Permutation_filter_compat, Permutation_sym, merge_perm|].
    rewrite filter_app, !filter_set_source. simpl. apply Permutation_refl.
  - eapply perm_trans;
      [apply Permutation_filter_compat, Permutation_sym, merge_perm|].
    rewrite filter_app, !filter_set_source. simpl. rewrite app_nil_r.
    apply Permutation_refl.
Qed.

(** X13: Sorting does not mix up provenance: the rows of the merged frame
    tagged [forecast] are the rows of the forecast frame, those tagged
    [history] the rows of the history frame. *)
Theorem merge_keeps_sources (hist fc : DataFrame) :
  Permutation (filter (fun r => source_eqb (source r) forecast) (merge hist fc))
              (set_source forecast fc) /\
  Permutation (filter (fun r => source_eqb (source r) history) (merge hist fc))
              (set_source history hist).
Proof. exact (merge_sources_perm hist fc). Qed.

(** ** Sums and means of columns *)

(** ** The dashboard of a run with data *)

Lemma widget_ranges_hub (s : settings) : widget_ranges s -> 0 < hub_height s.
Proof. intros (_ & _ & H & _). lra. Qed.

Lemma widget_ranges_rated (s : settings) :
  widget_ranges s -> Rltb 0 (rated_power_kw s) = true.
Proof. intros (_ & H & _). apply Rltb_true. lra. Qed.

Lemma process_fields (s : settings) (now_utc : Z) (hist fc : DataFrame) :
  0 < hub_height s -> hist <> [] \/ fc <> [] ->
  let rows := map (derived_row s (Rpower (hub_height s / 10.0) (alpha s)))
                  (merge hist fc) in
  process s now_utc hist fc
  = Ok (Shown
     {| df := rows;
        total_energy_next7 :=
          series_sum (map energy_kWh
            (filter (fun r => source_eqb (source (sample r)) forecast) rows));
        avg_cf :=
          if Rltb 0 (rated_power_kw s)
          then series_mean (map power_kW rows) / rated_power_kw s
          else 0.0;
        avg_wind_hub := series_mean (map wind_hub_m_s rows);
        next48 := select_next48 now_utc rows |}).
Proof.
  intros Hh Hne. unfold process.
  rewrite (not_both_empty _ _ Hne), (derive_rows _ _ Hh). reflexivity.
Qed.

Lemma power_nonneg (v d cp rho rated cut_in cut_out rw : R) :
  0 <= rated -> 0 <= cut_in -> 0 <= rho -> 0 <= cp ->
  0 <= turbine_power_from_wind v d cp rho rated cut_in cut_out rw.
Proof.
  intros Hr Hci Hrho Hcp.
  destruct (Rlt_dec v cut_in) as [Hlo | Hlo].
  { rewrite power_outside by (left; exact Hlo). rewrite Rmin_left by lra. lra. }
  destruct (Rlt_dec cut_out v) as [Hhi | Hhi].
  { rewrite power_outside by (right; exact Hhi). rewrite Rmin_left by lra. lra. }
  rewrite power_inside by lra.
  pose proof (aero_power_nonneg v d cp rho) as HP.
  assert (0 <= Rmin (aero_power_watt v d cp rho) (rated * 1000))
    by (apply Rmin_glb; lra).
  lra.
Qed.

Lemma derived_row_power_nonneg (s : settings) (factor : R) (r : Sample) :
  widget_ranges s -> 0 <= power_kW (derived_row s factor r).
Proof.
  intros (_ & Hr & _ & Hcp & _). simpl.
  apply power_nonneg; unfold Defaults.cut_in, Defaults.air_density; lra.
Qed.

Lemma series_sum_nonneg (l : list R) :
  Forall (fun x => 0 <= x) l -> 0 <= series_sum l.
Proof.
  induction 1 as [|x l Hx _ IH]; simpl; lra.
Qed.

Lemma series_mean_nonneg (l : list R) :
  Forall (fun x => 0 <= x) l -> 0 <= series_mean l.
Proof.
  intros Hl. pose proof (series_sum_nonneg l Hl) as H0.
  unfold series_mean, Rdiv. destruct l as [|x l].
  - simpl. lra.
  - apply Rmult_le_pos; [exact H0|]. left. apply Rinv_0_lt_compat.
    apply lt_0_INR. simpl. lia.
Qed.

Lemma sidebar_defaults_in_range : widget_ranges sidebar_defaults.
Proof. unfold widget_ranges, sidebar_defaults. simpl. repeat split; (lra || lia). Qed.

(** X14: For settings inside the widget ranges, every row of the dashboard
    has a power that is not negative, an energy equal to its power, and a
    hub wind speed equal to its 10 m wind speed times
    (hub_height / 10) ^ alpha; this holds for any numeric fetched wind
    values, negative ones included. *)
Theorem dashboard_rows_invariant
    (s : settings) (now_utc : Z) (hist fc : DataFrame) :
  widget_ranges s -> hist <> [] \/ fc <> [] ->
  exists d : dashboard,
    process s now_utc hist fc = Ok (Shown d) /\
    Forall (fun r =>
              0 <= power_kW r /\
              energy_kWh r = power_kW r /\
              wind_hub_m_s r
              = wind_m_s (sample r) * Rpower (hub_height s / 10) (alpha s))
           (df d).
Proof.
  intros Hw Hne. eexists.
  split; [apply process_fields; [apply widget_ranges_hub; exact Hw | exact Hne]|].
  simpl df. apply Forall_map. apply Forall_forall. intros r _.
  split; [apply derived_row_power_nonneg; exact Hw|].
  split; [reflexivity|]. simpl. f_equal. f_equal. lra.
Qed.

Lemma dashboard_rows_invariant_witness :
  exists d : dashboard,
    process sidebar_defaults 0 [(7%Z, 3)] [(9%Z, -2)] = Ok (Shown d) /\
    Forall (fun r =>
              0 <= power_kW r /\
              energy_kWh r = power_kW r /\
              wind_hub_m_s r
              = wind_m_s (sample r)
                * Rpower (hub_height sidebar_defaults / 10)
                         (alpha sidebar_defaults))
           (df d).
Proof.
  apply dashboard_rows_invariant;
    [exact sidebar_defaults_in_range | left; discriminate].
Defined.

Lemma filter_map_derived (s : settings) (factor : R) (l : list Sample) :
  filter (fun r => source_eqb (source (sample r)) forecast)
         (map (derived_row s factor) l)
  = map (derived_row s factor)
        (filter (fun r => source_eqb (source r) forecast) l).
Proof.
  induction l as [|r l IH]; simpl; [reflexivity|].
  rewrite IH. destruct (source_eqb (source r) forecast); reflexivity.
Qed.

(** X16: For settings inside the widget ranges and numeric wind values,
    the energy tile (the sum over the forecast rows) and the capacity
    factor are not negative, and the energy tile is exactly 0 when the
    forecast frame is empty, whatever the history holds. *)
Theorem forecast_energy_nonneg
    (s : settings) (now_utc : Z) (hist fc : DataFrame) :
  widget_ranges s -> hist <> [] \/ fc <> [] ->
  exists d : dashboard,
    process s now_utc hist fc = Ok (Shown d) /\
    0 <= total_energy_next7 d /\
    0 <= avg_cf d /\
    (fc <> [] \/ total_energy_next7 d = 0).
Proof.
  intros Hw Hne. eexists.
  split; [apply process_fields; [apply widget_ranges_hub; exact Hw | exact Hne]|].
  simpl total_energy_next7. simpl avg_cf.
  rewrite filter_map_derived, (widget_ranges_rated s Hw).
  split; [|split].
  - apply series_sum_nonneg. rewrite map_map.
    apply Forall_map, Forall_forall. intros r _.
    apply (derived_row_power_nonneg s _ r Hw).
  - assert (0 < rated_power_kw s) as Hr by (destruct Hw as (_ & H & _); lra).
    apply Rmult_le_pos; [|left; apply Rinv_0_lt_compat; exact Hr].
    apply series_mean_nonneg. rewrite map_map.
    apply Forall_map, Forall_forall. intros r _.
    apply (derived_row_power_nonneg s _ r Hw).
  - destruct fc as [|f fc]; [right | left; discriminate].
    destruct (merge_sources_perm hist []) as [Hfc _].
    apply Permutation_sym, Permutation_nil in Hfc. rewrite Hfc. reflexivity.
Qed.

Lemma forecast_energy_nonneg_witness :
  exists d : dashboard,
    process sidebar_defaults 0 [(7%Z, 9); (8%Z, 11)] [] = Ok (Shown d) /\
    0 <= total_energy_next7 d /\
    0 <= avg_cf d /\
    (@nil (Z * R) <> [] \/ total_energy_next7 d = 0).
Proof.
  apply forecast_energy_nonneg;
    [exact sidebar_defaults_in_range | left; discriminate].
Defined.

Lemma StronglySorted_filter {A : Type} (le : A -> A -> Prop) (f : A -> bool)
    (l : list A) :
  StronglySorted le l -> StronglySorted le (filter f l).
Proof.
  induction 1 as [|x l _ IH Hx]; simpl; [constructor|].
  destruct (f x); [|exact IH].
  constructor; [exact IH|].
  apply Forall_forall. intros y Hy. apply filter_In in Hy.
  rewrite Forall_forall in Hx. apply Hx. apply Hy.
Qed.

Lemma StronglySorted_derived (s : settings) (factor : R) (l : list Sample) :
  StronglySorted time_le l ->
  StronglySorted row_time_le (map (derived_row s factor) l).
Proof.
  induction 1 as [|x l _ IH Hx]; simpl; constructor; [exact IH|].
  apply Forall_map. eapply Forall_impl; [|exact Hx].
  intros y Hy. exact Hy.
Qed.

(** X18: Both tables of the dashboard are in time order: the full frame and
    the 48-hour selection taken from it. *)
Theorem dashboard_in_time_order
    (s : settings) (now_utc : Z) (hist fc : DataFrame) :
  0 < hub_height s -> hist <> [] \/ fc <> [] ->
  exists d : dashboard,
    process s now_utc hist fc = Ok (Shown d) /\
    StronglySorted row_time_le (df d) /\
    StronglySorted row_time_le (next48 d).
Proof.
  intros Hh Hne. eexists.
  split; [apply process_fields; assumption|].
  assert (StronglySorted row_time_le
            (map (derived_row s (Rpower (hub_height s / 10.0) (alpha s)))
                 (merge hist fc))) as Hs.
  { apply StronglySorted_derived. rewrite merge_eq.
    apply sort_values_strongly_sorted. }
  split; [exact Hs|]. simpl next48. unfold select_next48.
  apply StronglySorted_filter. exact Hs.
Qed.

Lemma dashboard_in_time_order_witness :
  exists d : dashboard,
    process sidebar_defaults 0 [(7%Z, 9)] [(3%Z, 11)] = Ok (Shown d) /\
    StronglySorted row_time_le (df d) /\
    StronglySorted row_time_le (next48 d).
Proof.
  apply dashboard_in_time_order; [simpl; lra | left; discriminate].
Defined.

(** ** The two fetches of a run *)

Lemma process_shown_not_empty (s : settings) (now_utc : Z)
    (hist fc : DataFrame) (d : dashboard) :
  process s now_utc hist fc = Ok (Shown d) ->
  (hist <> [] \/ fc <> []) /\
  map sample (df d) = merge hist fc.
Proof.
  unfold process. destruct hist as [|h hist]; [destruct fc as [|f fc]|];
    simpl empty; simpl andb; cbv iota; try discriminate.
  - unfold derive. destruct (adjust_height _ _ _ _) as [hub| |] eqn:E;
      simpl bind; try discriminate.
    intros H. injection H as <-. split; [right; discriminate|]. simpl df.
    revert E. unfold adjust_height.
    destruct (float_div _ _); simpl bind; try discriminate.
    destruct (float_pow _ _) as [factor| |]; simpl bind; try discriminate.
    intros E. injection E as <-.
    rewrite (assign_rows s factor). apply sample_derived_rows.
  - unfold derive. destruct (adjust_height _ _ _ _) as [hub| |] eqn:E;
      simpl bind; try discriminate.
    intros H. injection H as <-. split; [left; discriminate|]. simpl df.
    revert E. unfold adjust_height.
    destruct (float_div _ _); simpl bind; try discriminate.
    destruct (float_pow _ _) as [factor| |]; simpl bind; try discriminate.
    intros E. injection E as <-.
    rewrite (assign_rows s factor). apply sample_derived_rows.
Qed.

(** X19: A dashboard is shown only when both fetches succeeded and at least one
    brought rows; its frame then has one row per fetched row. A run never
    shows a dashboard built from one side after the other fetch failed. *)
Theorem dashboard_needs_both_fetches (server : request -> reply)
    (s : settings) (lat lon : R) (today_utc now_utc : Z) (d : dashboard) :
  run_fetch server s lat lon today_utc now_utc = Ok (Shown d) ->
  exists hist fc : DataFrame,
    fetch_wind_data server lat lon (today_utc - history_days s) (today_utc - 1)
    = Ok hist /\
    fetch_wind_data server lat lon today_utc (today_utc + forecast_days)
    = Ok fc /\
    (hist <> [] \/ fc <> []) /\
    length (df d) = (length hist + length fc)%nat.
Proof.
  unfold run_fetch.
  destruct (fetch_wind_data server lat lon (today_utc - history_days s) _)
    as [hist| |]; simpl bind; try discriminate.
  destruct (fetch_wind_data server lat lon today_utc _)
    as [fc| |]; simpl bind; try discriminate.
  intros H. exists hist, fc.
  destruct (process_shown_not_empty _ _ _ _ _ H) as [Hne Hm].
  repeat split; try exact Hne.
  rewrite <- (length_map sample), Hm. apply merge_length.
Qed.

Lemma dashboard_needs_both_fetches_witness :
  let server := fun _ : request =>
    Response 200 (Some {| time := Some [5%Z]; windspeed_10m := Some [3] |}) in
  exists d : dashboard,
    run_fetch server sidebar_defaults 17 78 100 0 = Ok (Shown d) /\
    exists hist fc : DataFrame,
      fetch_wind_data server 17 78
        (100 - history_days sidebar_defaults) (100 - 1) = Ok hist /\
      fetch_wind_data server 17 78 100 (100 + forecast_days) = Ok fc /\
      (hist <> [] \/ fc <> []) /\
      length (df d) = (length hist + length fc)%nat.
Proof.
  intros server.
  assert (0 < hub_height sidebar_defaults) as Hh by (simpl; lra).
  assert ([(5%Z, 3)] <> [] \/ [(5%Z, 3)] <> []) as Hne by (left; discriminate).
  pose proof (process_fields sidebar_defaults 0 [(5%Z, 3)] [(5%Z, 3)] Hh Hne)
    as Hp.
  cbv zeta in Hp.
  rewrite <- (run_fetch_after_fetches server sidebar_defaults 17 78 100 0
                [(5%Z, 3)] [(5%Z, 3)] eq_refl eq_refl) in Hp.
  eexists. split; [exact Hp|].
  exact (dashboard_needs_both_fetches _ _ _ _ _ _ _ Hp).
Defined.

(** X20: A run depends on the weather service through two answers only: the one
    for the days [today - history_days .. today - 1] and the one for the
    days [today .. today + 7], both at the chosen coordinates. Two services
    that agree on these two requests give the same run. *)
Theorem run_fetch_reads_two_requests (server server' : request -> reply)
    (s : settings) (lat lon : R) (today_utc now_utc : Z) :
  server {| latitude := lat; longitude := lon;
            start_date := today_utc - history_days s;
            end_date := today_utc - 1 |}
  = server' {| latitude := lat; longitude := lon;
               start_date := today_utc - history_days s;
               end_date := today_utc - 1 |} ->
  server {| latitude := lat; longitude := lon;
            start_date := today_utc; end_date := today_utc + forecast_days |}
  = server' {| latitude := lat; longitude := lon;
               start_date := today_utc;
               end_date := today_utc + forecast_days |} ->
  run_fetch server s lat lon today_utc now_utc
  = run_fetch server' s lat lon today_utc now_utc.
Proof.
  intros Hh Hf. unfold run_fetch, fetch_wind_data, requests_get.
  rewrite Hh, Hf. reflexivity.
Qed.

Lemma run_fetch_reads_two_requests_witness :
  run_fetch (fun _ => Response 200 None) sidebar_defaults 17 78 100 0
  = run_fetch (fun r => if (end_date r =? 50)%Z then Unreachable
                        else Response 200 None)
              sidebar_defaults 17 78 100 0.
Proof.
  apply run_fetch_reads_two_requests; reflexivity.
Defined.

(** ** Choosing the location *)

Section LocationFacts.
Variable char : Type.
Variable isspace : char -> bool.

Lemma lstrip_head (s : list char) :
  lstrip isspace s = [] \/
  exists c t, lstrip isspace s = c :: t /\ isspace c = false.
Proof.
  induction s as [|c s IH]; simpl; [left; reflexivity|].
  destruct (isspace c) eqn:E; [exact IH|].
  right. exists c, s. split; [reflexivity | exact E].
Qed.

Lemma lstrip_nil_iff (s : list char) :
  lstrip isspace s = [] <-> forallb isspace s = true.
Proof.
  induction s as [|c s IH]; simpl; [split; reflexivity|].
  destruct (isspace c); simpl; [exact IH|].
  split; discriminate.
Qed.

Lemma strip_nil_iff (s : list char) :
  strip isspace s = [] <-> forallb isspace s = true.
Proof.
  rewrite <- lstrip_nil_iff. unfold strip, rstrip. split.
  - intros H.
    assert (lstrip isspace (rev (lstrip isspace s)) = []) as H1.
    { destruct (lstrip isspace (rev (lstrip isspace s))) as [|x l]; [reflexivity|].
      simpl in H. destruct (rev l); discriminate. }
    apply lstrip_nil_iff in H1.
    destruct (lstrip_head s) as [E | (c & t & E & Hc)]; [exact E|].
    exfalso. rewrite E in H1. simpl in H1.
    rewrite forallb_app in H1. apply andb_true_iff in H1. destruct H1 as [_ H1].
    simpl in H1. rewrite Hc in H1. discriminate.
  - intros ->. reflexivity.
Qed.

Lemma strip_falsy (s : list char) :
  falsy (strip isspace s) = forallb isspace s.
Proof.
  destruct (forallb isspace s) eqn:E.
  - apply strip_nil_iff in E. rewrite E. reflexivity.
  - destruct (strip isspace s) eqn:Es; [|reflexivity].
    apply strip_nil_iff in Es. congruence.
Qed.

(** X21: A place that is empty or all white space leaves the coordinates of the
    number inputs in force and the geocoder out of the run: the result is
    the same whatever the geocoder would answer, also when it is down. *)
Theorem blank_place_keeps_manual_coordinates
    (geocoder : list char -> geo_reply) (place : list char) (lat lon : R) :
  forallb isspace place = true ->
  resolve_location isspace geocoder place lat lon = Ok (lat, lon).
Proof.
  intros H. unfold resolve_location. rewrite strip_falsy, H. reflexivity.
Qed.

(** X22: A place with a visible character is looked up as typed, and the first
    result replaces the coordinates of the number inputs, whatever they
    were and however many results follow. *)
Theorem first_result_replaces_coordinates
    (geocoder : list char -> geo_reply) (place : list char) (lat lon : R)
    (code : Z) (chosen : place_hit) (others : list place_hit) :
  forallb isspace place = false ->
  geocoder place = GeoResponse code (Some (chosen :: others)) ->
  ~ (400 <= code < 600)%Z ->
  resolve_location isspace geocoder place lat lon
  = Ok (hit_latitude chosen, hit_longitude chosen).
Proof.
  intros Hp Hg Hc. unfold resolve_location, geocode.
  rewrite strip_falsy, Hp, Hg. simpl negb. cbv iota.
  rewrite raise_for_status_ok by exact Hc. reflexivity.
Qed.

(** X23: A lookup that finds nothing, be it an empty ["results"] list or no
    such key, is no error: the coordinates of the number inputs stay. *)
Theorem no_result_keeps_manual_coordinates
    (geocoder : list char -> geo_reply) (place : list char) (lat lon : R)
    (code : Z) (results : option (list place_hit)) :
  geocoder place = GeoResponse code results ->
  ~ (400 <= code < 600)%Z ->
  results = None \/ results = Some [] ->
  resolve_location isspace geocoder place lat lon = Ok (lat, lon).
Proof.
  intros Hg Hc Hr. unfold resolve_location, geocode.
  destruct (negb (falsy (strip isspace place))); [|reflexivity].
  rewrite Hg, raise_for_status_ok by exact Hc.
  destruct Hr as [-> | ->]; reflexivity.
Qed.

(** X24: A failing lookup of a non-blank place stops the whole run with the
    lookup's exception: no weather request decides anything, although
    usable coordinates were entered by hand. *)
Theorem failed_lookup_stops_run
    (geocoder : list char -> geo_reply) (server : request -> reply)
    (s : settings) (place : list char) (lat lon : R)
    (today_utc now_utc : Z) :
  forallb isspace place = false ->
  (geocoder place = GeoUnreachable \/
   exists code results,
     geocoder place = GeoResponse code results /\ (400 <= code < 600)%Z) ->
  exists e : exn,
    on_run isspace geocoder server s place lat lon today_utc now_utc = Raise e /\
    (e = RequestException \/ exists code, e = HTTPError code).
Proof.
  intros Hp Hg. unfold on_run, resolve_location, geocode.
  rewrite strip_falsy, Hp. simpl negb. cbv iota.
  destruct Hg as [-> | (code & results & -> & Hc)].
  - exists RequestException. split; [reflexivity | left; reflexivity].
  - rewrite raise_for_status_raises by exact Hc.
    exists (HTTPError code). split; [reflexivity | right; exists code; reflexivity].
Qed.
End LocationFacts.

Lemma blank_place_keeps_manual_coordinates_witness :
  resolve_location is_blank_char (fun _ => GeoUnreachable) [32%Z; 32%Z]
                   default_lat default_lon
  = Ok (default_lat, default_lon).
Proof.
  apply blank_place_keeps_manual_coordinates. reflexivity.
Defined.

Lemma first_result_replaces_coordinates_witness :
  resolve_location is_blank_char
    (fun _ => GeoResponse 200
       (Some [ {| hit_latitude := 48; hit_longitude := 2 |};
               {| hit_latitude := 33; hit_longitude := -95 |} ]))
    [80%Z; 97%Z] default_lat default_lon
  = Ok (48, 2).
Proof.
  apply (first_result_replaces_coordinates Z is_blank_char _ _ _ _ 200
           {| hit_latitude := 48; hit_longitude := 2 |}
           [ {| hit_latitude := 33; hit_longitude := -95 |} ]);
    [reflexivity | reflexivity | lia].
Defined.

Lemma no_result_keeps_manual_coordinates_witness :
  resolve_location is_blank_char (fun _ => GeoResponse 200 None)
                   [80%Z; 97%Z] default_lat default_lon
  = Ok (default_lat, default_lon).
Proof.
  apply (no_result_keeps_manual_coordinates Z is_blank_char _ _ _ _ 200 None);
    [reflexivity | lia | left; reflexivity].
Defined.

Lemma failed_lookup_stops_run_witness :
  exists e : exn,
    on_run is_blank_char (fun _ => GeoUnreachable)
           (fun _ => Response 200 None) sidebar_defaults [80%Z; 97%Z]
           default_lat default_lon 100 0
    = Raise e /\
    (e = RequestException \/ exists code, e = HTTPError code).
Proof.
  apply failed_lookup_stops_run; [reflexivity | left; reflexivity].
Defined.

(** * Where rounding decides: the clamp on binary64 numbers *)

Module Binary64Facts.
Import PrimFloat.
Local Open Scope float_scope.
Set Warnings "-inexact-float".

(** C1: the stated bound fails in the code. The clamp is applied to the
    power in watts, against [rated_power_kw * 1000.0], and the division by
    1000.0 comes after it; for a rated power of 2.6778 kW that round trip
    ends one unit in the last place above the rated power. At v = 20 with
    rotor 77, Cp 0.4, air density 1.225, cut-in 3.5 and cut-out 25 the
    function returns 2.6778000000000004, which is greater than 2.6778. *)
Theorem clamp_round_trip_exceeds_rated :
  Binary64.turbine_power_from_wind 20.0 77.0 0.4 1.225 2.6778 3.5 25.0 12.0
  = 2.6778000000000004 /\
  (2.6778 <? Binary64.turbine_power_from_wind
               20.0 77.0 0.4 1.225 2.6778 3.5 25.0 12.0) = true /\
  (0.0 <=? Binary64.turbine_power_from_wind
             20.0 77.0 0.4 1.225 2.6778 3.5 25.0 12.0) = true.
Proof. repeat split; reflexivity. Qed.

(** C10: at the cut-out speed itself the zero branch is not taken and the
    result is positive, but where the clamp binds it is not
    min(P / 1000, rated_power_kw). At v = cut_out = 25 with rated power
    2.6778 kW the function returns 2.6778000000000004, the closed form
    gives 2.6778. *)
Theorem boundary_value_differs_from_closed_form :
  ((25.0 <? 3.5) || (25.0 <? 25.0)) = false /\
  Binary64.turbine_power_from_wind 25.0 77.0 0.4 1.225 2.6778 3.5 25.0 12.0
  = 2.6778000000000004 /\
  Binary64.min_of_kw 25.0 77.0 0.4 1.225 2.6778 = 2.6778 /\
  (Binary64.turbine_power_from_wind 25.0 77.0 0.4 1.225 2.6778 3.5 25.0 12.0
   =? Binary64.min_of_kw 25.0 77.0 0.4 1.225 2.6778) = false /\
  (0.0 <? Binary64.turbine_power_from_wind
            25.0 77.0 0.4 1.225 2.6778 3.5 25.0 12.0) = true.
Proof. repeat split; reflexivity. Qed.

(** The rated power of the scenario of C9 passes the round trip unchanged:
    on binary64 numbers too the result at 12 m/s is exactly 1500. *)
Lemma rated_1500_exact :
  Binary64.turbine_power_from_wind 12.0 77.0 0.4 1.225 1500.0 3.5 25.0 12.0
  = 1500.0.
Proof. reflexivity. Qed.
End Binary64Facts.
